(** * PolyVoice transcription endpoint ([backend/main.py])

    A shallow embedding of the request handler [transcribe_audio_v1] and of the
    pieces of Python and of the web framework it relies on, followed by the
    properties of the handler.

    Modelling conventions.
    - A Python [str] is a Rocq [string]; its characters are read as the code
      points 0..255, on which [str.lower] is modelled exactly.
    - [bytes] is [list Byte.byte]; [len] is a [Z].
    - A Python [float] is a primitive binary64 float, so every float operation
      of the handler ([/], [*], [-], [max], [round], [int]) is computed with
      IEEE 754 semantics and not with real arithmetic.
    - The file system is a finite map from paths to contents.  Its operations
      fail only for reasons visible in the map (a path that already exists, a
      path that does not exist).  The transcription service is an oracle of
      the environment that answers every call with a text or with an error.
    - The handler runs in a state-and-exception monad over the file system and
      a trace of the external actions it performs.  Its [print] calls are
      diagnostics and are left out. *)

From Stdlib Require Import ZArith Floats Ascii String.
From stdpp Require Import gmap strings list pretty.

Open Scope Z_scope.

(* Decimal float literals stand for the nearest binary64 value, as in Python. *)
Set Warnings "-inexact-float".

(** ** Python built-ins used by the handler *)

Module Py.

(** *** Strings *)

(** [str.lower] on one code point below 256: the ASCII capitals and the
    Latin-1 capitals U+00C0..U+00DE (U+00D7, the multiplication sign, is not
    a letter) move up by 32; every other code point is its own image. *)
Definition lower_char (c : ascii) : ascii :=
  let n := N_of_ascii c in
  if ((65 <=? n) && (n <=? 90))%N
     || ((192 <=? n) && (n <=? 222) && negb (n =? 215))%N
  then ascii_of_N (n + 32) else c.

Fixpoint lower (s : string) : string :=
  match s with
  | EmptyString => EmptyString
  | String c r => String (lower_char c) (lower r)
  end.

(** [s.split(sep)] for a one-character separator: the list of the maximal
    pieces between separators, never empty (["".split(".") == [""]]). *)
Fixpoint split (sep : ascii) (s : string) : list string :=
  match s with
  | EmptyString => [EmptyString]
  | String c r =>
      if Ascii.eqb c sep then EmptyString :: split sep r
      else match split sep r with
           | [] => [String c EmptyString]
           | piece :: pieces => String c piece :: pieces
           end
  end.

(** [l[-1]] on a list that [split] produced (so never the [IndexError]
    case; see [split_not_nil]). *)
Definition last_item (l : list string) : string := List.last l EmptyString.

(** [sep.join(l)]. *)
Fixpoint join (sep : string) (l : list string) : string :=
  match l with
  | [] => EmptyString
  | [x] => x
  | x :: rest => x +:+ sep +:+ join sep rest
  end.

(** Truth value of an [Optional[str]]: [None] and [""] are false. *)
Definition truthy (s : option string) : bool :=
  match s with
  | None => false
  | Some EmptyString => false
  | Some (String _ _) => true
  end.

(** [len(b)] for [b : bytes]. *)
Definition len (b : list Byte.byte) : Z := Z.of_nat (length b).

(** Iteration order of a [set] of strings.  It follows the strings' hashes,
    which CPython salts per process: any order of the elements can come up.
    The order is picked by an index into the list of all the orders. *)
Definition set_iter (seed : nat) (elems : list string) : list string :=
  nth seed (permutations elems) elems.

(** *** Floats *)

(** Conversion of an [int] in the range of a payload length (below 2^63) to
    the nearest float, as true division [n / d] does with its operands. *)
Definition float_of_int (n : Z) : float := PrimFloat.of_uint63 (Uint63.of_Z n).

(** [max(a, b)] on two arguments: the first one is kept unless the second
    one is greater. *)
Definition max (a b : float) : float := if PrimFloat.ltb a b then b else a.

(** Quotient [p / q] of two integers ([0 <= p], [0 < q]) rounded half to
    even. *)
Definition div_half_even (p q : Z) : Z :=
  let d := p / q in
  match (2 * (p mod q)) ?= q with
  | Lt => d
  | Eq => if Z.even d then d else d + 1
  | Gt => d + 1
  end.

(** The float nearest to the rational [p / q] ([0 <= p], [0 < q]), ties to
    even, with sign [neg]: the quotient is taken with at least 56
    significant bits and one more bit that records a non-zero remainder,
    and rounded once to binary64. *)
Definition float_of_ratio (neg : bool) (p q : Z) : float :=
  if p =? 0 then SF2Prim (S754_zero neg)
  else
    let k := Z.max 0 (Z.log2 q - Z.log2 p + 56) in
    let n := p * 2 ^ k in
    let m := 2 * (n / q) + (if n mod q =? 0 then 0 else 1) in
    SF2Prim (binary_normalize prec emax (if neg then - m else m) (- (k + 1)) neg).

(** [round(x, ndigits)] for a float and a non-negative [ndigits] (both call
    sites pass a literal, hence the type [N]).  CPython prints the exact
    binary value of [x] correctly rounded (half to even) to [ndigits]
    decimals and reads the decimal back as the nearest float.  Infinities
    and NaN round to themselves, and so does every float when [ndigits]
    exceeds 323.  A finite float with a non-negative exponent is an integer
    and rounds to itself. *)
Definition round (x : float) (ndigits : N) : float :=
  let nd := Z.of_N ndigits in
  if 323 <? nd then x
  else
    match Prim2SF x with
    | S754_finite s m e =>
        if 0 <=? e then x
        else float_of_ratio s
               (div_half_even (Z.pos m * 10 ^ nd) (2 ^ (- e)))
               (10 ^ nd)
    | _ => x
    end.

(** [int(x)]: truncation toward zero; on the right, the message of the
    [OverflowError] (infinities) or of the [ValueError] (NaN). *)
Definition int_of_float (x : float) : Z + string :=
  match Prim2SF x with
  | S754_zero _ => inl 0
  | S754_finite s m e =>
      let a := if 0 <=? e then Z.pos m * 2 ^ e else Z.pos m / 2 ^ (- e) in
      inl (if s then - a else a)
  | S754_infinity _ => inr "cannot convert float infinity to integer"%string
  | S754_nan => inr "cannot convert float NaN to integer"%string
  end.

End Py.

(** ** Data model *)

(** Starlette's [UploadFile], as far as the handler looks at it. *)
Record UploadFile := {
  filename : option string;
  content_type : option string;
  file : list Byte.byte
}.

(** The pydantic response models. *)
Record TranscriptionResponse := {
  text : string;
  model_used : string;
  processing_time_ms : Z;
  estimated_cost : float;
  estimated_minutes : float
}.

Record ErrorResponse := {
  error : string;
  detail : option string
}.

(** Exceptions: FastAPI's [HTTPException], and every other [Exception], of
    which the handler only uses [str(e)]. *)
Inductive exn :=
| HTTPException (status_code : Z) (detail : string)
| Exception (msg : string).

Definition HTTP_400_BAD_REQUEST : Z := 400.
Definition HTTP_500_INTERNAL_SERVER_ERROR : Z := 500.
Definition HTTP_422_UNPROCESSABLE_ENTITY : Z := 422.

(** Supported audio formats: the literal of the source, and the set built
    from it. *)
Definition SUPPORTED_FORMATS_literal : list string :=
  [".m4a"; ".mp3"; ".wav"; ".ogg"; ".webm"]%string.

Definition SUPPORTED_FORMATS : gset string :=
  list_to_set SUPPORTED_FORMATS_literal.

(** ** The world outside the handler *)

(** Answer of [client.audio.transcriptions.create]: the transcription, or the
    message of the exception it raised. *)
Inductive ApiResult :=
| ApiText (text : string)
| ApiError (msg : string).

(** What the process and its surroundings decide for one request. *)
Record Env := {
  hash_seed : nat;                  (* salt of the string hashes *)
  tempdir : string;                 (* [tempfile.gettempdir()] *)
  temp_names : list string;         (* the random names [tempfile] draws *)
  time_start : float;               (* first [time.time()] *)
  time_end : float;                 (* second [time.time()] *)
  transcriptions_create :           (* the remote service *)
    string -> string -> list Byte.byte -> ApiResult
}.

(** External actions, in the order the handler performs them. *)
Inductive Event :=
| EvRead                                        (* [await audio.read()] *)
| EvCreate (path : string)                      (* temporary file created *)
| EvWrite (path : string) (data : list Byte.byte)
| EvCall (model : string) (data : list Byte.byte)  (* outbound call *)
| EvUnlink (path : string).

Record World := {
  fs : gmap string (list Byte.byte);
  trace : list Event
}.

Definition initial (files : gmap string (list Byte.byte)) : World :=
  {| fs := files; trace := [] |}.

(** ** State and exception monad *)

Inductive Outcome (A : Type) :=
| Val (a : A)
| Raise (e : exn).
Arguments Val {A} a.
Arguments Raise {A} e.

Definition M (A : Type) : Type := World -> Outcome A * World.

Definition ret {A} (a : A) : M A := fun w => (Val a, w).

Definition raise {A} (e : exn) : M A := fun w => (Raise e, w).

Definition bind {A B} (m : M A) (k : A -> M B) : M B :=
  fun w =>
    match m w with
    | (Val a, w') => k a w'
    | (Raise e, w') => (Raise e, w')
    end.

Declare Scope py_scope.
Delimit Scope py_scope with py.
Notation "x <- m ;; k" := (bind m (fun x => k))
  (at level 100, m at next level, right associativity) : py_scope.
Notation "m ;; k" := (bind m (fun _ => k))
  (at level 100, right associativity) : py_scope.

(** [try: body finally: cleanup].  The cleanup runs on both exits of the body;
    the body's result or exception goes through unless the cleanup raises. *)
Definition try_finally {A} (body : M A) (cleanup : M unit) : M A :=
  fun w =>
    let '(r, w1) := body w in
    match cleanup w1 with
    | (Val _, w2) => (r, w2)
    | (Raise e, w2) => (Raise e, w2)
    end.

(** [try: body except ...: handler]. *)
Definition try_except {A} (body : M A) (handler : exn -> M A) : M A :=
  fun w =>
    match body w with
    | (Val a, w1) => (Val a, w1)
    | (Raise e, w1) => handler e w1
    end.

Definition emit (ev : Event) : M unit :=
  fun w => (Val tt, {| fs := fs w; trace := trace w ++ [ev] |}).

Definition get_fs : M (gmap string (list Byte.byte)) :=
  fun w => (Val (fs w), w).

Definition put_fs (files : gmap string (list Byte.byte)) : M unit :=
  fun w => (Val tt, {| fs := files; trace := trace w |}).

(** ** Library calls with effects *)

(** [await audio.read()]. *)
Definition upload_read (audio : UploadFile) : M (list Byte.byte) :=
  (emit EvRead ;; ret (file audio))%py.

(** The candidate path [tempfile] builds from a random name. *)
Definition temp_path (env : Env) (name suffix : string) : string :=
  (tempdir env +:+ "/tmp" +:+ name +:+ suffix)%string.

(** [tempfile] opens candidates with [O_EXCL] until one does not exist yet. *)
Fixpoint first_free (env : Env) (suffix : string) (names : list string)
    (files : gmap string (list Byte.byte)) : option string :=
  match names with
  | [] => None
  | name :: rest =>
      match files !! temp_path env name suffix with
      | None => Some (temp_path env name suffix)
      | Some _ => first_free env suffix rest files
      end
  end.

(** [with tempfile.NamedTemporaryFile(delete=False, suffix=...) as temp_file:
       temp_file.write(data); temp_file_path = temp_file.name]:
    the file is created empty under a fresh name, written, closed and kept. *)
Definition named_temporary_file (env : Env) (suffix : string)
    (data : list Byte.byte) : M string :=
  (files <- get_fs ;;
   match first_free env suffix (temp_names env) files with
   | None => raise (Exception "[Errno 17] No usable temporary file name found")
   | Some path =>
       put_fs (<[path := []]> files) ;;
       emit (EvCreate path) ;;
       files' <- get_fs ;;
       put_fs (<[path := data]> files') ;;
       emit (EvWrite path data) ;;
       ret path
   end)%py.

(** [with open(path, 'rb') as h: client.audio.transcriptions.create(file=h,
    model=..., response_format=...)]. *)
Definition open_and_transcribe (env : Env) (path model format : string)
    : M string :=
  (files <- get_fs ;;
   match files !! path with
   | None =>
       raise (Exception ("[Errno 2] No such file or directory: '" +:+ path +:+ "'"))
   | Some data =>
       emit (EvCall model data) ;;
       match transcriptions_create env model format data with
       | ApiText t => ret t
       | ApiError msg => raise (Exception msg)
       end
   end)%py.

Definition os_path_exists (path : string) : M bool :=
  (files <- get_fs ;; ret (bool_decide (is_Some (files !! path))))%py.

Definition os_unlink (path : string) : M unit :=
  (files <- get_fs ;;
   match files !! path with
   | None =>
       raise (Exception ("[Errno 2] No such file or directory: '" +:+ path +:+ "'"))
   | Some _ => put_fs (delete path files) ;; emit (EvUnlink path)
   end)%py.

(** [int(x)] with its exceptions. *)
Definition py_int (x : float) : M Z :=
  match Py.int_of_float x with
  | inl n => ret n
  | inr msg => raise (Exception msg)
  end.

(** ** The handler *)

(** The estimates computed from the payload (local variables of the handler:
    [file_size_mb = len(audio_data) / (1024 * 1024)],
    [estimated_minutes = max(file_size_mb / 0.5, 0.1)],
    [estimated_cost = estimated_minutes * 0.003]). *)
Module Estimates.

Definition file_size_mb (audio_data : list Byte.byte) : float :=
  (Py.float_of_int (Py.len audio_data) / Py.float_of_int (1024 * 1024))%float.

Definition estimated_minutes (audio_data : list Byte.byte) : float :=
  Py.max (file_size_mb audio_data / 0.5)%float 0.1%float.

Definition estimated_cost (audio_data : list Byte.byte) : float :=
  (estimated_minutes audio_data * 0.003)%float.

End Estimates.

Definition MODEL : string := "gpt-4o-mini-transcribe".

(** ['.' + audio.filename.split('.')[-1].lower()] *)
Definition extension_of (name : string) : string :=
  ("." +:+ Py.lower (Py.last_item (Py.split "." name)))%string.

(** The detail of the format error; [', '.join] iterates over the set. *)
Definition unsupported_detail (env : Env) : string :=
  ("Unsupported audio format. Supported formats: "
   +:+ Py.join ", " (Py.set_iter (hash_seed env) SUPPORTED_FORMATS_literal))%string.

(** The inner [try] block, lines 156-189. *)
Definition transcribe_staged (env : Env) (audio_data : list Byte.byte)
    (temp_file_path : string) : M TranscriptionResponse :=
  ((* Calculate estimates *)
   let file_size_mb := Estimates.file_size_mb audio_data in
   let estimated_minutes := Estimates.estimated_minutes audio_data in
   (* Start transcription *)
   let start_time := time_start env in
   transcription <- open_and_transcribe env temp_file_path MODEL "json" ;;
   (* Calculate processing metrics *)
   let end_time := time_end env in
   processing_time_ms <- py_int ((end_time - start_time) * 1000)%float ;;
   let estimated_cost := Estimates.estimated_cost audio_data in
   ret {| text := transcription;
          model_used := MODEL;
          processing_time_ms := processing_time_ms;
          estimated_cost := Py.round estimated_cost 6;
          estimated_minutes := Py.round estimated_minutes 2 |})%py.

(** The [finally] block, lines 191-195. *)
Definition cleanup (temp_file_path : string) : M unit :=
  (present <- os_path_exists temp_file_path ;;
   if present then os_unlink temp_file_path else ret tt)%py.

(** The outer [try] block, lines 116-195. *)
Definition transcribe_body (env : Env) (audio : UploadFile)
    : M TranscriptionResponse :=
  ((* Validate file presence *)
   (if negb (Py.truthy (filename audio))
    then raise (HTTPException HTTP_400_BAD_REQUEST "No audio file provided")
    else ret tt) ;;
   (* Validate file format *)
   file_extension <-
     (match filename audio with
      | Some name =>
          if Py.truthy (Some name) then
            if bool_decide (extension_of name ∈ SUPPORTED_FORMATS)
            then ret (Some (extension_of name))
            else raise (HTTPException HTTP_400_BAD_REQUEST (unsupported_detail env))
          else ret None
      | None => ret None
      end) ;;
   let file_extension :=
     if Py.truthy file_extension then default ".m4a"%string file_extension
     else ".m4a"%string in
   (* Read audio data *)
   audio_data <- upload_read audio ;;
   (match audio_data with
    | [] => raise (HTTPException HTTP_400_BAD_REQUEST "Empty audio file")
    | _ :: _ => ret tt
    end) ;;
   (* Create temporary file *)
   temp_file_path <- named_temporary_file env file_extension audio_data ;;
   try_finally (transcribe_staged env audio_data temp_file_path)
               (cleanup temp_file_path))%py.

(** [async def transcribe_audio_v1(audio)]: HTTP exceptions go through, every
    other exception becomes a 500. *)
Definition transcribe_audio_v1 (env : Env) (audio : UploadFile)
    : M TranscriptionResponse :=
  try_except (transcribe_body env audio)
    (fun e =>
       match e with
       | HTTPException _ _ => raise e
       | Exception msg =>
           raise (HTTPException HTTP_500_INTERNAL_SERVER_ERROR
                    ("Transcription failed: " +:+ msg))
       end).

(** ** The route *)

Inductive Content :=
| TranscriptionContent (r : TranscriptionResponse)
| ErrorContent (e : ErrorResponse)
| ValidationContent.

Record JSONResponse := {
  status : Z;
  content : Content
}.

(** [@app.exception_handler(HTTPException)] *)
Definition http_exception_handler (exc_status_code : Z) (exc_detail : string)
    : JSONResponse :=
  {| status := exc_status_code;
     content := ErrorContent
       {| error := exc_detail;
          detail := Some ("HTTP " +:+ pretty exc_status_code)%string |} |}.

(** [@app.exception_handler(500)] *)
Definition internal_server_error_handler : JSONResponse :=
  {| status := 500;
     content := ErrorContent
       {| error := "Internal server error";
          detail := Some "An unexpected error occurred"%string |} |}.

(** [@app.post("/api/v1/transcribe")] with the parameter
    [audio: UploadFile = File(...)].  The argument is the multipart field
    [audio] of the request, if there is one.  The Ellipsis default declares
    the field required: FastAPI answers a request without it from its own
    request validation, with status 422, and does not enter the handler. *)
Definition post_transcribe (env : Env) (field : option UploadFile) (w : World)
    : JSONResponse * World :=
  match field with
  | None =>
      ({| status := HTTP_422_UNPROCESSABLE_ENTITY; content := ValidationContent |}, w)
  | Some audio =>
      match transcribe_audio_v1 env audio w with
      | (Val r, w') => ({| status := 200; content := TranscriptionContent r |}, w')
      | (Raise (HTTPException sc d), w') => (http_exception_handler sc d, w')
      | (Raise (Exception _), w') => (internal_server_error_handler, w')
      end
  end.

(** ** Definitions used in the statements *)

(** The estimate as the specification words it: the size in MB over 0.5,
    floored at 0.1. *)
Definition spec_estimated_minutes (n : Z) : float :=
  let size_in_MB := (Py.float_of_int n / Py.float_of_int 1048576)%float in
  Py.max (size_in_MB / 0.5)%float 0.1%float.

(** [contains frag s]: [frag] occurs in [s] (Python's [frag in s]). *)
Fixpoint contains (frag s : string) : bool :=
  String.prefix frag s
  || match s with
     | EmptyString => false
     | String _ r => contains frag r
     end.

(** [has_char c s]: the character [c] occurs in [s]. *)
Fixpoint has_char (c : ascii) (s : string) : bool :=
  match s with
  | EmptyString => false
  | String c' r => Ascii.eqb c' c || has_char c r
  end.

(** The events a run from [w] to [w'] added to the trace. *)
Definition events_since (w w' : World) : list Event :=
  drop (length (trace w)) (trace w').

(** ** Worlds and outcomes of a run *)

(** The world after the request body was read. *)
Definition after_read (w : World) : World :=
  {| fs := fs w; trace := trace w ++ [EvRead] |}.

(** The world after a staged run: the file system is back to what it was and
    the trace shows the five actions. *)
Definition after_staged (w : World) (path : string) (data : list Byte.byte)
    : World :=
  {| fs := fs w;
     trace := trace w ++ [EvRead; EvCreate path; EvWrite path data;
                          EvCall MODEL data; EvUnlink path] |}.

(** The paths a run of the handler can take, with the outcome and the world
    each one ends in. *)
Inductive run_path (env : Env) (audio : UploadFile) (w : World)
  : Outcome TranscriptionResponse * World -> Prop :=
| path_no_file :
    Py.truthy (filename audio) = false ->
    run_path env audio w
      (Raise (HTTPException 400 "No audio file provided"), w)
| path_unsupported name :
    filename audio = Some name -> name <> EmptyString ->
    extension_of name ∉ SUPPORTED_FORMATS ->
    run_path env audio w
      (Raise (HTTPException 400 (unsupported_detail env)), w)
| path_empty name :
    filename audio = Some name -> name <> EmptyString ->
    extension_of name ∈ SUPPORTED_FORMATS ->
    file audio = [] ->
    run_path env audio w
      (Raise (HTTPException 400 "Empty audio file"), after_read w)
| path_failed_unstaged name msg :
    filename audio = Some name -> name <> EmptyString ->
    extension_of name ∈ SUPPORTED_FORMATS ->
    file audio <> [] ->
    first_free env (extension_of name) (temp_names env) (fs w) = None ->
    run_path env audio w
      (Raise (HTTPException 500 ("Transcription failed: " +:+ msg)),
       after_read w)
| path_failed_staged name path msg :
    filename audio = Some name -> name <> EmptyString ->
    extension_of name ∈ SUPPORTED_FORMATS ->
    file audio <> [] ->
    first_free env (extension_of name) (temp_names env) (fs w) = Some path ->
    run_path env audio w
      (Raise (HTTPException 500 ("Transcription failed: " +:+ msg)),
       after_staged w path (file audio))
| path_success name path r :
    filename audio = Some name -> name <> EmptyString ->
    extension_of name ∈ SUPPORTED_FORMATS ->
    file audio <> [] ->
    first_free env (extension_of name) (temp_names env) (fs w) = Some path ->
    model_used r = MODEL ->
    estimated_cost r = Py.round (Estimates.estimated_cost (file audio)) 6 ->
    estimated_minutes r = Py.round (Estimates.estimated_minutes (file audio)) 2 ->
    run_path env audio w (Val r, after_staged w path (file audio)).


(** ** Example environments and uploads *)

Module Examples.

Definition answering (t : string) : Env :=
  {| hash_seed := 0;
     tempdir := "/tmp";
     temp_names := ["k2j4h6g8"; "q1w2e3r4"]%string;
     time_start := 1000;
     time_end := 1001.25;
     transcriptions_create := fun _ _ _ => ApiText t |}.

Definition failing (msg : string) : Env :=
  {| hash_seed := 7;
     tempdir := "/tmp";
     temp_names := ["k2j4h6g8"; "q1w2e3r4"]%string;
     time_start := 1000;
     time_end := 1001.25;
     transcriptions_create := fun _ _ _ => ApiError msg |}.

Definition upload (name : string) (data : list Byte.byte) : UploadFile :=
  {| filename := Some name; content_type := Some "audio/mp4"%string; file := data |}.

Definition two_bytes : list Byte.byte := [Byte.x52; Byte.x49].

(** A payload of [n] zero bytes. *)
Definition zeros (n : Z) : list Byte.byte := repeat Byte.x00 (Z.to_nat n).

End Examples.

(** ** Process configuration: health check, start-up, server settings *)

(** The process as the configuration code sees it.  [environ] is
    [os.environ] once [load_dotenv()] has run.  [int_of_str] is [int(s)] on a
    string, [None] for its [ValueError]; which strings it accepts is left to
    the interpreter. *)
Record Process := {
  environ : gmap string string;
  int_of_str : string -> option Z
}.

(** [os.getenv(key)] *)
Definition getenv (p : Process) (key : string) : option string :=
  environ p !! key.

(** [int(os.getenv(key, default))] with an [int] default: the default is
    already a number, a value from the environment is parsed.  On the left,
    the literal that [int] refused. *)
Definition getenv_int (p : Process) (key : string) (default : Z) : string + Z :=
  match getenv p key with
  | None => inr default
  | Some s =>
      match int_of_str p s with
      | Some n => inr n
      | None => inl s
      end
  end.

(** [max(a, b)] on two [int]s. *)
Definition int_max (a b : Z) : Z := if a <? b then b else a.

(** [GET /api/v1/health] *)
Module Health.

Record HealthResponse := {
  status : string;
  service : string;
  version : string;
  openai_configured : bool
}.

Definition health_check (p : Process) : HealthResponse :=
  {| status := "healthy";
     service := "PolyVoice Transcription API";
     version := "1.0.0";
     openai_configured := Py.truthy (getenv p "OPENAI_API_KEY") |}.

End Health.

(** The lines [lifespan] prints, by what they say. *)
Inductive LifespanLine :=
| StartingUp
| KeyNotFoundWarning
| KeyLoaded
| ShuttingDown.

(** [lifespan(app)]: the lines printed before the [yield] and after it. *)
Definition lifespan (p : Process) : list LifespanLine * list LifespanLine :=
  (StartingUp
   :: (if negb (Py.truthy (getenv p "OPENAI_API_KEY"))
       then [KeyNotFoundWarning] else [KeyLoaded]),
   [ShuttingDown]).

(** [start.py] *)
Module Start.

(** The keyword arguments of [uvicorn.run]. *)
Record UvicornRun := {
  app : string;
  host : string;
  port : Z;
  workers : Z;
  reload : bool;
  log_level : string;
  access_log : bool;
  use_colors : bool;
  loop : string
}.

(** [main()]: the call of [uvicorn.run] it ends in, or the literal on which
    [int] raised; the port is read before the workers.  The lines it prints
    are left out. *)
Definition main (p : Process) : string + UvicornRun :=
  match getenv_int p "PORT" 6000 with
  | inl bad => inl bad
  | inr port =>
      let host := default "0.0.0.0"%string (getenv p "HOST") in
      match getenv_int p "WORKERS" 1 with
      | inl bad => inl bad
      | inr workers =>
          let reload :=
            String.eqb (Py.lower (default "false"%string (getenv p "RELOAD")))
                       "true" in
          let log_level := Py.lower (default "info"%string (getenv p "LOG_LEVEL")) in
          inr {| app := "main:app";
                 host := host;
                 port := port;
                 workers := workers;
                 reload := reload;
                 log_level := log_level;
                 access_log := true;
                 use_colors := true;
                 loop := "auto" |}
      end
  end.

End Start.



(** [uvicorn.conf.py] *)
Module UvicornConf.

(** The settings of the module that depend on the environment or on the
    branch taken at the end (the other settings are constants).
    [reload_dirs] and [reload_includes] are bound in development only. *)
Record Settings := {
  bind : string;
  workers : Z;
  worker_connections : Z;
  max_requests : Z;
  preload_app : bool;
  loglevel : string;
  reload : bool;
  reload_dirs : option (list string);
  reload_includes : option (list string)
}.

(** [os.getenv('ENVIRONMENT', 'development').lower() == 'production'] *)
Definition production (p : Process) : bool :=
  String.eqb (Py.lower (default "development"%string (getenv p "ENVIRONMENT")))
             "production".

(** Running the module top to bottom: its settings at the end, or the
    literal on which [int] raised. *)
Definition load (p : Process) : string + Settings :=
  let bind := ("0.0.0.0:" +:+ default "6000"%string (getenv p "PORT"))%string in
  match getenv_int p "WORKERS" 1 with
  | inl bad => inl bad
  | inr workers =>
      let loglevel := Py.lower (default "info"%string (getenv p "LOG_LEVEL")) in
      if production p then
        match getenv_int p "WORKERS" 2 with
        | inl bad => inl bad
        | inr n =>
            inr {| bind := bind;
                   workers := int_max 2 n;
                   worker_connections := 2000;
                   max_requests := 2000;
                   preload_app := true;
                   loglevel := loglevel;
                   reload := false;
                   reload_dirs := None;
                   reload_includes := None |}
        end
      else
        inr {| bind := bind;
               workers := 1;
               worker_connections := 1000;
               max_requests := 1000;
               preload_app := true;
               loglevel := loglevel;
               reload := true;
               reload_dirs := Some ["."%string];
               reload_includes := Some ["*.py"%string] |}
  end.

End UvicornConf.

(** ** More definitions used in the statements *)

(** The outbound calls among some events. *)
Definition is_call (ev : Event) : bool :=
  match ev with
  | EvCall _ _ => true
  | _ => false
  end.


(** The quotient behind the estimate, before the floor. *)
Definition raw_minutes (n : Z) : float :=
  (Py.float_of_int n / Py.float_of_int 1048576 / 0.5)%float.

(** The floor of the estimate applies to a payload of [n] bytes, for [n]
    between 1 and 52428; true outside that range. *)
Definition floor_applies (n : Z) : bool :=
  (n <? 1) || (52428 <? n) || PrimFloat.ltb (raw_minutes n) 0.1.

(** [P] holds on the block of [2 ^ bits] integers that starts at [base]. *)
Fixpoint all_in_block (P : Z -> bool) (bits : nat) (base : Z) : bool :=
  match bits with
  | O => P base
  | S b => all_in_block P b base && all_in_block P b (base + 2 ^ Z.of_nat b)
  end.

(** Example processes. *)
Module ExampleProcess.

(** A parser of plain decimal numerals, standing for [int]. *)
Fixpoint digits (acc : Z) (s : string) : option Z :=
  match s with
  | EmptyString => Some acc
  | String c r =>
      let n := Z.of_N (N_of_ascii c) in
      if (48 <=? n) && (n <=? 57) then digits (10 * acc + (n - 48)) r else None
  end.

Definition decimal (s : string) : option Z :=
  match s with
  | EmptyString => None
  | _ => digits 0 s
  end.

Definition of_list (vars : list (string * string)) : Process :=
  {| environ := list_to_map vars; int_of_str := decimal |}.

End ExampleProcess.

(** * Properties *)

(** ** Strings *)

Section Strings.

Variable sep : ascii.

Lemma split_not_nil (s : string) : Py.split sep s <> [].
Proof.
  destruct s as [|c r]; simpl; [discriminate|].
  destruct (Ascii.eqb c sep); [discriminate|].
  destruct (Py.split sep r); discriminate.
Qed.

(** Splitting distributes over a separator in the middle. *)
Lemma split_app (f e : string) :
  Py.split sep (f +:+ String sep e) = Py.split sep f ++ Py.split sep e.
Proof.
  induction f as [|c r IH]; simpl.
  - now rewrite Ascii.eqb_refl.
  - destruct (Ascii.eqb c sep); rewrite IH; [reflexivity|].
    pose proof (split_not_nil r) as Hr.
    destruct (Py.split sep r); [contradiction|reflexivity].
Qed.

Lemma split_no_sep (e : string) :
  has_char sep e = false -> Py.split sep e = [e].
Proof.
  induction e as [|c r IH]; simpl; [reflexivity|].
  intros [Hc Hr]%orb_false_iff. rewrite Hc, (IH Hr). reflexivity.
Qed.

Lemma last_item_app (l1 l2 : list string) :
  l2 <> [] -> Py.last_item (l1 ++ l2) = Py.last_item l2.
Proof.
  intros Hl2. unfold Py.last_item.
  induction l1 as [|x l1 IH]; simpl; [reflexivity|].
  destruct (l1 ++ l2) eqn:E; [|exact IH].
  apply app_eq_nil in E as [_ ->]. contradiction.
Qed.

(** The last piece of [f + sep + e] is [e] when [e] has no separator. *)
Lemma last_item_split_app (f e : string) :
  has_char sep e = false ->
  Py.last_item (Py.split sep (f +:+ String sep e)) = e.
Proof.
  intros He. rewrite split_app, last_item_app by apply split_not_nil.
  now rewrite split_no_sep.
Qed.

End Strings.

(** Lowering a character yields a dot only from a dot. *)
Lemma lower_char_dot (c : ascii) :
  Ascii.eqb (Py.lower_char c) "." = Ascii.eqb c ".".
Proof.
  destruct c as [[] [] [] [] [] [] [] []]; vm_compute; reflexivity.
Qed.

Lemma has_dot_lower (s : string) : has_char "." (Py.lower s) = has_char "." s.
Proof.
  induction s as [|c r IH]; simpl; [reflexivity|].
  now rewrite lower_char_dot, IH.
Qed.

(** Membership in the supported set, spelled out. *)
Lemma supported_cases (x : string) :
  x ∈ SUPPORTED_FORMATS <->
  x = ".m4a"%string \/ x = ".mp3"%string \/ x = ".wav"%string
  \/ x = ".ogg"%string \/ x = ".webm"%string.
Proof.
  unfold SUPPORTED_FORMATS, SUPPORTED_FORMATS_literal.
  rewrite elem_of_list_to_set. rewrite !elem_of_cons, elem_of_nil. tauto.
Qed.

(** A name [f + e] whose ending [e] lowers to a supported format has that
    format as its extension. *)
Lemma extension_of_supported (f e : string) :
  Py.lower e ∈ SUPPORTED_FORMATS -> extension_of (f +:+ e) = Py.lower e.
Proof.
  intros He.
  assert (exists e', e = String "." e' /\ has_char "." e' = false) as (e' & -> & Hd).
  { destruct e as [|c e']; apply supported_cases in He; simpl in He.
    - intuition discriminate.
    - exists e'.
      assert (Ascii.eqb (Py.lower_char c) "." = true
              /\ has_char "." (Py.lower e') = false) as [Hc Hd].
      { destruct He as [H|[H|[H|[H|H]]]]; injection H as -> ->; split; reflexivity. }
      rewrite lower_char_dot in Hc. apply Ascii.eqb_eq in Hc as ->.
      rewrite has_dot_lower in Hd. auto. }
  unfold extension_of. now rewrite last_item_split_app.
Qed.

(** ** Runs of the handler, path by path *)

Ltac unfold_run :=
  unfold transcribe_audio_v1, transcribe_body, try_except, try_finally,
    transcribe_staged, cleanup, named_temporary_file, open_and_transcribe,
    upload_read, os_path_exists, os_unlink, py_int, put_fs, get_fs, emit,
    bind, raise, ret.

Ltac step_run := cbn [fs trace negb default id fst snd].

Lemma first_free_fresh env suffix names (files : gmap string (list Byte.byte)) path :
  first_free env suffix names files = Some path -> files !! path = None.
Proof.
  induction names as [|name rest IH]; simpl; [discriminate|].
  destruct (files !! temp_path env name suffix) eqn:E; [exact IH|].
  now intros [= <-].
Qed.

Lemma truthy_Some (name : string) :
  name <> EmptyString -> Py.truthy (Some name) = true.
Proof. destruct name; [contradiction|reflexivity]. Qed.

(** The extension the handler computes is never empty: the default of line
    137 is not taken. *)
Lemma extension_truthy (name : string) :
  Py.truthy (Some (extension_of name)) = true.
Proof. reflexivity. Qed.

Section Runs.

Variables (env : Env) (audio : UploadFile) (w : World).

Lemma run_no_file :
  Py.truthy (filename audio) = false ->
  transcribe_audio_v1 env audio w
  = (Raise (HTTPException 400 "No audio file provided"), w).
Proof. intros H. unfold_run. now rewrite H. Qed.

Variable name : string.
Hypothesis Hname : filename audio = Some name.
Hypothesis Hnonempty : name <> EmptyString.

Lemma run_unsupported :
  extension_of name ∉ SUPPORTED_FORMATS ->
  transcribe_audio_v1 env audio w
  = (Raise (HTTPException 400 (unsupported_detail env)), w).
Proof.
  intros H. unfold_run. rewrite Hname, (truthy_Some _ Hnonempty).
  now rewrite bool_decide_eq_false_2.
Qed.

Hypothesis Hsupported : extension_of name ∈ SUPPORTED_FORMATS.

Lemma run_empty :
  file audio = [] ->
  transcribe_audio_v1 env audio w
  = (Raise (HTTPException 400 "Empty audio file"), after_read w).
Proof.
  intros H. unfold_run. rewrite Hname, (truthy_Some _ Hnonempty).
  rewrite bool_decide_eq_true_2 by assumption.
  now rewrite H.
Qed.

Hypothesis Hdata : file audio <> [].

Lemma run_no_temp_name :
  first_free env (extension_of name) (temp_names env) (fs w) = None ->
  transcribe_audio_v1 env audio w
  = (Raise (HTTPException 500
              ("Transcription failed: "
               +:+ "[Errno 17] No usable temporary file name found")),
     after_read w).
Proof.
  intros H. unfold_run. rewrite Hname, (truthy_Some _ Hnonempty).
  rewrite bool_decide_eq_true_2 by assumption.
  destruct (file audio) as [|b data]; [contradiction|].
  step_run. rewrite extension_truthy. step_run. now rewrite H.
Qed.

Variable path : string.
Hypothesis Hpath :
  first_free env (extension_of name) (temp_names env) (fs w) = Some path.

(** Up to the answer of the service every staged run is the same. *)
Lemma run_staged :
  transcribe_audio_v1 env audio w
  = match transcriptions_create env MODEL "json" (file audio) with
    | ApiText t =>
        match Py.int_of_float ((time_end env - time_start env) * 1000)%float with
        | inl ms =>
            (Val {| text := t;
                    model_used := MODEL;
                    processing_time_ms := ms;
                    estimated_cost :=
                      Py.round (Estimates.estimated_cost (file audio)) 6;
                    estimated_minutes :=
                      Py.round (Estimates.estimated_minutes (file audio)) 2 |},
             after_staged w path (file audio))
        | inr msg =>
            (Raise (HTTPException 500 ("Transcription failed: " +:+ msg)),
             after_staged w path (file audio))
        end
    | ApiError msg =>
        (Raise (HTTPException 500 ("Transcription failed: " +:+ msg)),
         after_staged w path (file audio))
    end.
Proof.
  pose proof (first_free_fresh _ _ _ _ _ Hpath) as Hfresh.
  assert (Hclean : forall d, delete path (<[path:=d]> (fs w)) = fs w)
    by (intros d; now apply delete_insert_id).
  unfold_run. rewrite Hname, (truthy_Some _ Hnonempty).
  rewrite bool_decide_eq_true_2 by assumption.
  destruct (file audio) as [|b data] eqn:Edata; [contradiction|].
  step_run. rewrite extension_truthy. step_run. rewrite Hpath. step_run.
  rewrite insert_insert_eq, lookup_insert_eq. step_run.
  unfold after_staged.
  destruct (transcriptions_create env MODEL "json" (b :: data)).
  - destruct (Py.int_of_float _); step_run;
      rewrite lookup_insert_eq, bool_decide_eq_true_2 by eauto; step_run;
      rewrite lookup_insert_eq; step_run;
      rewrite Hclean, <- !app_assoc; reflexivity.
  - step_run.
    rewrite lookup_insert_eq, bool_decide_eq_true_2 by eauto. step_run.
    rewrite lookup_insert_eq. step_run.
    rewrite Hclean, <- !app_assoc. reflexivity.
Qed.

End Runs.

(** Every run of the handler follows one of the paths. *)
Lemma run_follows_path env audio w :
  run_path env audio w (transcribe_audio_v1 env audio w).
Proof.
  destruct (Py.truthy (filename audio)) eqn:Hfile.
  2: { rewrite run_no_file by assumption. now constructor. }
  destruct (filename audio) as [name|] eqn:Hname; [|discriminate].
  assert (name <> EmptyString) as Hne by (intros ->; discriminate).
  destruct (decide (extension_of name ∈ SUPPORTED_FORMATS)) as [Hsup|Hsup].
  2: { rewrite (run_unsupported _ _ _ name) by assumption.
       now apply path_unsupported with name. }
  destruct (file audio) as [|b data] eqn:Hdata.
  { rewrite (run_empty _ _ _ name) by assumption.
    now apply path_empty with name. }
  assert (file audio <> []) as Hdata' by (rewrite Hdata; discriminate).
  destruct (first_free env (extension_of name) (temp_names env) (fs w))
    as [path|] eqn:Hpath.
  2: { rewrite (run_no_temp_name _ _ _ name) by assumption.
       now apply path_failed_unstaged with name. }
  rewrite (run_staged _ _ _ name Hname Hne Hsup Hdata' path Hpath).
  destruct (transcriptions_create env MODEL "json" (file audio)).
  - destruct (Py.int_of_float _).
    + now apply path_success with name.
    + now apply path_failed_staged with name.
  - now apply path_failed_staged with name.
Qed.

(** ** Validation *)

(** The extension of a name without a dot is the whole name, lowered, behind
    a dot. *)
Lemma extension_of_dotless (name : string) :
  has_char "." name = false -> extension_of name = ("." +:+ Py.lower name)%string.
Proof.
  intros H. unfold extension_of. now rewrite split_no_sep.
Qed.

(** A non-empty name without a dot is rejected on format grounds unless the
    whole name, lowered, happens to be a format: the default of line 137 plays
    no part. *)
Lemma dotless_rejected (env : Env) (audio : UploadFile) (w : World) (name : string) :
  filename audio = Some name ->
  name <> EmptyString ->
  has_char "." name = false ->
  ("." +:+ Py.lower name)%string ∉ SUPPORTED_FORMATS ->
  transcribe_audio_v1 env audio w
  = (Raise (HTTPException 400 (unsupported_detail env)), w).
Proof.
  intros Hname Hne Hdot Hext. apply run_unsupported with name; try assumption.
  now rewrite extension_of_dotless.
Qed.

(** C1 (the code departs from the claim here).  A non-empty payload uploaded
    under the name "recording", which has no dot, is not treated as [.m4a]:
    the extension computed for it is ".recording" and the handler answers
    with the 400 format error, in every environment. *)
Theorem dotless_filename_rejected (env : Env) (w : World) :
  extension_of "recording" = ".recording"%string
  /\ transcribe_audio_v1 env (Examples.upload "recording" Examples.two_bytes) w
     = (Raise (HTTPException 400 (unsupported_detail env)), w).
Proof.
  split; [reflexivity|].
  apply run_unsupported with (name := "recording"%string);
    [reflexivity|discriminate|].
  rewrite supported_cases. vm_compute. intuition discriminate.
Qed.



(** C10.  An upload whose filename is the empty string gets the answer of an
    upload without filename: the 400 error "No audio file provided", with the
    world untouched, so that the payload was not read. *)
Theorem empty_filename_like_missing
    (env : Env) (w : World) (ct : option string) (data : list Byte.byte) :
  let empty_name := {| filename := Some EmptyString; content_type := ct; file := data |} in
  let no_name := {| filename := None; content_type := ct; file := data |} in
  transcribe_audio_v1 env empty_name w = transcribe_audio_v1 env no_name w
  /\ transcribe_audio_v1 env empty_name w
     = (Raise (HTTPException 400 "No audio file provided"), w)
  /\ events_since w (snd (transcribe_audio_v1 env empty_name w)) = [].
Proof.
  intros empty_name no_name.
  rewrite !run_no_file by reflexivity.
  repeat split. apply drop_all.
Qed.

(** Every order of iteration of the set puts all five formats in the detail
    of the format error. *)
Lemma unsupported_detail_lists_formats (env : Env) (fmt : string) :
  fmt ∈ SUPPORTED_FORMATS -> contains fmt (unsupported_detail env) = true.
Proof.
  intros Hfmt.
  assert (Hall : forallb
            (fun order =>
               forallb
                 (fun fmt =>
                    contains fmt
                      ("Unsupported audio format. Supported formats: "
                       +:+ Py.join ", " order)%string)
                 SUPPORTED_FORMATS_literal)
            (SUPPORTED_FORMATS_literal :: permutations SUPPORTED_FORMATS_literal)
          = true) by (vm_compute; reflexivity).
  rewrite forallb_forall in Hall.
  specialize (Hall (Py.set_iter (hash_seed env) SUPPORTED_FORMATS_literal)).
  rewrite forallb_forall in Hall.
  unfold unsupported_detail. apply Hall.
  - unfold Py.set_iter.
    destruct (nth_in_or_default (hash_seed env)
                (permutations SUPPORTED_FORMATS_literal)
                SUPPORTED_FORMATS_literal) as [Hin| ->]; [right; exact Hin|now left].
  - apply list_elem_of_In. unfold SUPPORTED_FORMATS in Hfmt.
    now rewrite elem_of_list_to_set in Hfmt.
Qed.

(** C7.  A request whose filename has an extension outside the supported set
    is answered with status 400, and the error message lists each of the
    supported formats. *)
Theorem unsupported_extension_rejected
    (env : Env) (audio : UploadFile) (w : World) (name : string) :
  filename audio = Some name ->
  name <> EmptyString ->
  extension_of name ∉ SUPPORTED_FORMATS ->
  post_transcribe env (Some audio) w
  = ({| status := 400;
        content := ErrorContent {| error := unsupported_detail env;
                                   detail := Some "HTTP 400"%string |} |}, w)
  /\ forall fmt, fmt ∈ SUPPORTED_FORMATS ->
                 contains fmt (unsupported_detail env) = true.
Proof.
  intros Hname Hne Hext. split.
  - unfold post_transcribe. now rewrite (run_unsupported _ _ _ name).
  - apply unsupported_detail_lists_formats.
Qed.

(** The [.txt] upload of the claim. *)
Lemma unsupported_extension_rejected_txt :
  filename (Examples.upload "notes.txt" Examples.two_bytes) = Some "notes.txt"%string
  /\ extension_of "notes.txt" = ".txt"%string
  /\ fst (post_transcribe (Examples.answering "hello")
            (Some (Examples.upload "notes.txt" Examples.two_bytes)) (initial ∅))
     = {| status := 400;
          content := ErrorContent
            {| error := "Unsupported audio format. Supported formats: .m4a, .mp3, .wav, .ogg, .webm";
               detail := Some "HTTP 400"%string |} |}.
Proof.
  split; [reflexivity|]. split; [reflexivity|].
  rewrite (proj1 (unsupported_extension_rejected (Examples.answering "hello")
            (Examples.upload "notes.txt" Examples.two_bytes) (initial ∅)
            "notes.txt" eq_refl ltac:(discriminate)
            ltac:(vm_compute; discriminate))).
  reflexivity.
Defined.

(** C8.  An upload with a filename of a supported extension and an empty
    payload is answered with status 400, "Empty audio file"; reading the
    payload is the only action of the run, so the service is not called. *)
Theorem empty_payload_rejected
    (env : Env) (audio : UploadFile) (w : World) (name : string) :
  filename audio = Some name ->
  name <> EmptyString ->
  extension_of name ∈ SUPPORTED_FORMATS ->
  file audio = [] ->
  post_transcribe env (Some audio) w
  = ({| status := 400;
        content := ErrorContent {| error := "Empty audio file";
                                   detail := Some "HTTP 400"%string |} |},
     {| fs := fs w; trace := trace w ++ [EvRead] |})
  /\ events_since w (snd (post_transcribe env (Some audio) w)) = [EvRead].
Proof.
  intros Hname Hne Hext Hdata.
  unfold post_transcribe. rewrite (run_empty _ _ _ name) by assumption.
  split; [reflexivity|].
  unfold events_since, after_read. cbn [snd trace]. apply drop_app_length.
Qed.

(** An empty [.mp3] upload. *)
Lemma empty_payload_rejected_mp3 :
  fst (post_transcribe (Examples.answering "hello")
         (Some (Examples.upload "memo.mp3" [])) (initial ∅))
  = {| status := 400;
       content := ErrorContent {| error := "Empty audio file";
                                  detail := Some "HTTP 400"%string |} |}
  /\ trace (snd (post_transcribe (Examples.answering "hello")
                   (Some (Examples.upload "memo.mp3" [])) (initial ∅)))
     = [EvRead].
Proof.
  rewrite (proj1 (empty_payload_rejected (Examples.answering "hello")
            (Examples.upload "memo.mp3" []) (initial ∅) "memo.mp3"
            eq_refl ltac:(discriminate)
            ltac:(vm_compute; reflexivity) eq_refl)).
  split; reflexivity.
Defined.

Lemma events_since_after_read (w : World) :
  events_since w (after_read w) = [EvRead].
Proof. apply drop_app_length. Qed.

Lemma events_since_after_staged (w : World) path data :
  events_since w (after_staged w path data)
  = [EvRead; EvCreate path; EvWrite path data; EvCall MODEL data; EvUnlink path].
Proof. apply drop_app_length. Qed.

(** C9.  A run that ends in a 400 error was rejected at one of the three
    validation points; it left the file system as it was and its only
    possible action was reading the payload: no temporary file was created
    or written and the service was not called. *)
Theorem rejection_has_no_side_effect
    (env : Env) (audio : UploadFile) (w w' : World) (d : string) :
  transcribe_audio_v1 env audio w = (Raise (HTTPException 400 d), w') ->
  (d = "No audio file provided"%string
   \/ d = unsupported_detail env
   \/ d = "Empty audio file"%string)
  /\ fs w' = fs w
  /\ (events_since w w' = [] \/ events_since w w' = [EvRead]).
Proof.
  intros Hrun. pose proof (run_follows_path env audio w) as Hpath.
  rewrite Hrun in Hpath.
  inversion Hpath; subst.
  - split; [tauto|]. split; [reflexivity|]. left. apply drop_all.
  - split; [tauto|]. split; [reflexivity|]. left. apply drop_all.
  - split; [tauto|]. split; [reflexivity|]. right. apply events_since_after_read.
Qed.

(** A rejected [.txt] upload next to an older file: nothing is touched. *)
Lemma rejection_has_no_side_effect_txt :
  let w := initial {[ "/tmp/old"%string := Examples.two_bytes ]} in
  let run := transcribe_audio_v1 (Examples.answering "hello")
               (Examples.upload "notes.txt" Examples.two_bytes) w in
  fst run = Raise (HTTPException 400
                     "Unsupported audio format. Supported formats: .m4a, .mp3, .wav, .ogg, .webm")
  /\ fs (snd run) = fs w
  /\ (events_since w (snd run) = [] \/ events_since w (snd run) = [EvRead]).
Proof.
  intros w run.
  assert (run = (Raise (HTTPException 400
                   "Unsupported audio format. Supported formats: .m4a, .mp3, .wav, .ogg, .webm"),
                 w)) as Hrun by (vm_compute; reflexivity).
  destruct (rejection_has_no_side_effect _ _ _ _ _ Hrun) as (_ & Hfs & Hev).
  rewrite Hrun. cbn [fst snd]. split; [reflexivity|]. split; [exact Hfs|exact Hev].
Defined.

(** ** Staging and cleanup *)

(** C3.  For a request that passed validation, whatever the service answers:
    when the temporary file was created, the run unlinks it as its last
    action and the path is absent from the file system at the end; in every
    case the file system at the end is the one at the start. *)
Theorem staged_file_removed
    (env : Env) (audio : UploadFile) (w : World) (name : string) :
  filename audio = Some name ->
  name <> EmptyString ->
  extension_of name ∈ SUPPORTED_FORMATS ->
  file audio <> [] ->
  let w' := snd (transcribe_audio_v1 env audio w) in
  fs w' = fs w
  /\ match first_free env (extension_of name) (temp_names env) (fs w) with
     | Some path =>
         events_since w w'
         = [EvRead; EvCreate path; EvWrite path (file audio);
            EvCall "gpt-4o-mini-transcribe" (file audio); EvUnlink path]
         /\ fs w' !! path = None
     | None => events_since w w' = [EvRead]
     end.
Proof.
  intros Hname Hne Hsup Hdata w'. subst w'.
  destruct (first_free env (extension_of name) (temp_names env) (fs w))
    as [path|] eqn:Hpath.
  - rewrite (run_staged _ _ _ name Hname Hne Hsup Hdata path Hpath).
    assert (forall r : Outcome TranscriptionResponse,
              fs (snd (r, after_staged w path (file audio))) = fs w
              /\ events_since w (snd (r, after_staged w path (file audio)))
                 = [EvRead; EvCreate path; EvWrite path (file audio);
                    EvCall "gpt-4o-mini-transcribe" (file audio); EvUnlink path]
                 /\ fs (snd (r, after_staged w path (file audio))) !! path = None)
      as Hall.
    { intros r. cbn [snd]. split; [reflexivity|]. split.
      - apply events_since_after_staged.
      - exact (first_free_fresh _ _ _ _ _ Hpath). }
    destruct (transcriptions_create env MODEL "json" (file audio));
      [destruct (Py.int_of_float _)|]; apply Hall.
  - rewrite (run_no_temp_name _ _ _ name) by assumption.
    split; [reflexivity|]. apply events_since_after_read.
Qed.

(** A run in which the service fails: the staged file is gone at the end. *)
Lemma staged_file_removed_on_failure :
  let run := transcribe_audio_v1 (Examples.failing "Connection error.")
               (Examples.upload "memo.m4a" Examples.two_bytes) (initial ∅) in
  fst run = Raise (HTTPException 500 "Transcription failed: Connection error.")
  /\ fs (snd run) = ∅
  /\ fs (snd run) !! "/tmp/tmpk2j4h6g8.m4a"%string = None
  /\ last (trace (snd run)) = Some (EvUnlink "/tmp/tmpk2j4h6g8.m4a").
Proof.
  intros run.
  pose proof (staged_file_removed (Examples.failing "Connection error.")
                (Examples.upload "memo.m4a" Examples.two_bytes) (initial ∅)
                "memo.m4a" eq_refl ltac:(discriminate)
                ltac:(vm_compute; reflexivity)
                ltac:(discriminate)) as (Hfs & Hev).
  subst run.
  split; [vm_compute; reflexivity|].
  split; [exact Hfs|].
  split; [rewrite Hfs; reflexivity|].
  vm_compute. reflexivity.
Defined.

(** ** Estimates *)

(** C4.  For a non-empty payload of [n] bytes the estimate of the handler is
    [max((n / (1024*1024)) / 0.5, 0.1)], in binary64 arithmetic, and so never
    below 0.1; it is 2.0 for a payload of 1 MB (1048576 bytes) and 0.1 for
    one of 10 KB (10240 bytes). *)
Theorem estimated_minutes_formula (audio_data : list Byte.byte) :
  audio_data <> [] ->
  Estimates.estimated_minutes audio_data
  = spec_estimated_minutes (Py.len audio_data)
  /\ PrimFloat.ltb (Estimates.estimated_minutes audio_data) 0.1 = false
  /\ (Py.len audio_data = 1048576 ->
      Estimates.estimated_minutes audio_data = 2%float)
  /\ (Py.len audio_data = 10240 ->
      Estimates.estimated_minutes audio_data = 0.1%float).
Proof.
  intros _. split; [reflexivity|].
  unfold Estimates.estimated_minutes, Estimates.file_size_mb. split.
  - unfold Py.max.
    set (x := (_ / 0.5)%float).
    destruct (PrimFloat.ltb x 0.1) eqn:Hlt; [reflexivity|exact Hlt].
  - split; intros ->; vm_compute; reflexivity.
Qed.

Lemma len_zeros (n : Z) : 0 <= n -> Py.len (Examples.zeros n) = n.
Proof.
  intros Hn. unfold Py.len, Examples.zeros. rewrite repeat_length. lia.
Qed.

(** The two payload sizes of the claim. *)
Lemma estimated_minutes_formula_examples :
  Estimates.estimated_minutes (Examples.zeros 1048576) = 2%float
  /\ Estimates.estimated_minutes (Examples.zeros 10240) = 0.1%float.
Proof.
  split.
  - apply (estimated_minutes_formula (Examples.zeros 1048576)).
    + intros H. apply (f_equal Py.len) in H. rewrite len_zeros in H by lia.
      discriminate H.
    + apply len_zeros. lia.
  - apply (estimated_minutes_formula (Examples.zeros 10240)).
    + vm_compute. discriminate.
    + vm_compute. reflexivity.
Defined.



(** ** Supported extensions *)

Lemma supported_name_nonempty (f e : string) :
  Py.lower e ∈ SUPPORTED_FORMATS -> (f +:+ e)%string <> EmptyString.
Proof.
  intros He. destruct e as [|c e'].
  - apply supported_cases in He. simpl in He. intuition discriminate.
  - destruct f; discriminate.
Qed.

(** C6.  Let [e] be one of the five supported extensions in any mix of
    upper and lower case.  A request with a non-empty payload named [f + e]
    is never answered with a 400 error; every successful response to it
    carries [model_used = "gpt-4o-mini-transcribe"] and comes from a run
    whose single call of the service was made with that model; and the
    response is successful when a temporary name is free, the service
    answers with a text and the elapsed time is a finite number. *)
Theorem supported_extension_accepted
    (env : Env) (audio : UploadFile) (w : World) (f e : string) :
  Py.lower e ∈ SUPPORTED_FORMATS ->
  filename audio = Some (f +:+ e)%string ->
  file audio <> [] ->
  (forall d, fst (transcribe_audio_v1 env audio w) <> Raise (HTTPException 400 d))
  /\ (forall r w',
        transcribe_audio_v1 env audio w = (Val r, w') ->
        model_used r = "gpt-4o-mini-transcribe"%string
        /\ exists path,
             events_since w w'
             = [EvRead; EvCreate path; EvWrite path (file audio);
                EvCall "gpt-4o-mini-transcribe" (file audio); EvUnlink path])
  /\ (forall path t ms,
        first_free env (Py.lower e) (temp_names env) (fs w) = Some path ->
        transcriptions_create env "gpt-4o-mini-transcribe" "json" (file audio)
        = ApiText t ->
        Py.int_of_float ((time_end env - time_start env) * 1000)%float = inl ms ->
        exists r w', transcribe_audio_v1 env audio w = (Val r, w') /\ text r = t).
Proof.
  intros He Hname Hdata.
  pose proof (supported_name_nonempty f e He) as Hne.
  pose proof (extension_of_supported f e He) as Hext.
  assert (extension_of (f +:+ e) ∈ SUPPORTED_FORMATS) as Hsup by now rewrite Hext.
  pose proof (run_follows_path env audio w) as Hpath.
  split; [|split].
  - intros d Hrun.
    destruct (transcribe_audio_v1 env audio w) as [r w'].
    cbn [fst] in Hrun. subst r.
    inversion Hpath; subst.
    + rewrite Hname in *. now rewrite truthy_Some in *.
    + congruence.
    + contradiction.
  - intros r w' Hrun. rewrite Hrun in Hpath. inversion Hpath; subst.
    split; [assumption|]. exists path. apply events_since_after_staged.
  - intros path t ms Hfree Hapi Hms. rewrite <- Hext in Hfree.
    rewrite (run_staged _ _ _ _ Hname Hne Hsup Hdata path Hfree).
    fold MODEL in Hapi. rewrite Hapi, Hms. eauto.
Qed.

(** A name with two dots and a mixed-case extension. *)
Lemma supported_extension_accepted_upper :
  let run := transcribe_audio_v1 (Examples.answering "hello")
               (Examples.upload "Voice.Note.WebM" Examples.two_bytes) (initial ∅) in
  Py.lower ".WebM" = ".webm"%string
  /\ (exists r, fst run = Val r
                /\ model_used r = "gpt-4o-mini-transcribe"%string
                /\ text r = "hello"%string)
  /\ trace (snd run)
     = [EvRead; EvCreate "/tmp/tmpk2j4h6g8.webm";
        EvWrite "/tmp/tmpk2j4h6g8.webm" Examples.two_bytes;
        EvCall "gpt-4o-mini-transcribe" Examples.two_bytes;
        EvUnlink "/tmp/tmpk2j4h6g8.webm"].
Proof.
  intros run.
  pose proof (supported_extension_accepted (Examples.answering "hello")
                (Examples.upload "Voice.Note.WebM" Examples.two_bytes)
                (initial ∅) "Voice.Note" ".WebM"
                ltac:(vm_compute; reflexivity)
                eq_refl ltac:(discriminate)) as (_ & Hmodel & Hok).
  destruct (Hok "/tmp/tmpk2j4h6g8.webm"%string "hello"%string 1250
              eq_refl eq_refl ltac:(vm_compute; reflexivity))
    as (r & w' & Hrun & Htext).
  destruct (Hmodel r w' Hrun) as (Hm & _).
  subst run. rewrite Hrun. cbn [fst snd].
  split; [reflexivity|]. split; [eauto|].
  assert (w' = snd (transcribe_audio_v1 (Examples.answering "hello")
            (Examples.upload "Voice.Note.WebM" Examples.two_bytes) (initial ∅)))
    as -> by now rewrite Hrun.
  vm_compute. reflexivity.
Defined.

(** * Further properties of the handler *)

Lemma events_since_same (w : World) : events_since w w = [].
Proof. apply drop_all. Qed.

(** Case analysis on the outcome of a run. *)
Ltac run_cases env audio w :=
  let Hpath := fresh "Hpath" in
  let r := fresh "r" in
  let w' := fresh "w'" in
  pose proof (run_follows_path env audio w) as Hpath;
  destruct (transcribe_audio_v1 env audio w) as [r w'];
  inversion Hpath; subst; clear Hpath;
  cbn [fst snd];
  rewrite ?events_since_same, ?events_since_after_read,
    ?events_since_after_staged.

(** Membership in a list that is written out. *)
Ltac in_cases H :=
  repeat (apply elem_of_cons in H as [H|H]); [..|apply elem_of_nil in H; contradiction].


(** X2.  The three shapes of the answer to a request that carries an upload: 200
    with a transcription, 400 with an error, or 500 with an error that starts
    with "Transcription failed: ".  The detail names the status.  No other
    status and no other body is produced. *)
Theorem response_shape (env : Env) (audio : UploadFile) (w : World) :
  let resp := fst (post_transcribe env (Some audio) w) in
  (exists r, resp = {| status := 200; content := TranscriptionContent r |})
  \/ (exists msg,
        resp = {| status := 400;
                  content := ErrorContent {| error := msg;
                                             detail := Some "HTTP 400"%string |} |})
  \/ (exists msg,
        resp = {| status := 500;
                  content := ErrorContent
                    {| error := ("Transcription failed: " +:+ msg)%string;
                       detail := Some "HTTP 500"%string |} |}).
Proof.
  intros resp. subst resp. unfold post_transcribe.
  run_cases env audio w; eauto.
Qed.

(** X3.  The service is called at most once per request.  A call is made with
    the fixed model and with exactly the bytes of the upload, and only for a
    non-empty upload whose name has a supported extension. *)
Theorem call_discipline (env : Env) (audio : UploadFile) (w : World) :
  let evs := events_since w (snd (transcribe_audio_v1 env audio w)) in
  (length (List.filter is_call evs) <= 1)%nat
  /\ forall model data,
       EvCall model data ∈ evs ->
       model = "gpt-4o-mini-transcribe"%string
       /\ data = file audio
       /\ data <> []
       /\ exists name, filename audio = Some name
                       /\ extension_of name ∈ SUPPORTED_FORMATS.
Proof.
  intros evs. subst evs. run_cases env audio w.
  all: split; [cbn; lia|]; intros model data Hev.
  all: try (apply elem_of_nil in Hev; contradiction).
  all: try (apply list_elem_of_singleton in Hev; discriminate).
  all: in_cases Hev; try discriminate; injection Hev as -> ->; eauto 6.
Qed.

(** X4.  A failure of the service is reported as status 500 with the message of
    the failure behind "Transcription failed: ", after the one call and the
    removal of the staged file. *)
Theorem service_failure_reported
    (env : Env) (audio : UploadFile) (w : World) (name path msg : string) :
  filename audio = Some name ->
  name <> EmptyString ->
  extension_of name ∈ SUPPORTED_FORMATS ->
  file audio <> [] ->
  first_free env (extension_of name) (temp_names env) (fs w) = Some path ->
  transcriptions_create env "gpt-4o-mini-transcribe" "json" (file audio)
  = ApiError msg ->
  post_transcribe env (Some audio) w
  = ({| status := 500;
        content := ErrorContent
          {| error := ("Transcription failed: " +:+ msg)%string;
             detail := Some "HTTP 500"%string |} |},
     {| fs := fs w;
        trace := trace w ++ [EvRead; EvCreate path; EvWrite path (file audio);
                             EvCall "gpt-4o-mini-transcribe" (file audio);
                             EvUnlink path] |}).
Proof.
  intros Hname Hne Hsup Hdata Hpath Hapi. unfold post_transcribe.
  rewrite (run_staged _ _ _ name Hname Hne Hsup Hdata path Hpath).
  fold MODEL in Hapi. rewrite Hapi. reflexivity.
Qed.

(** A service that refuses the request. *)
Lemma service_failure_reported_rate_limit :
  fst (post_transcribe (Examples.failing "Rate limit reached")
         (Some (Examples.upload "memo.ogg" Examples.two_bytes)) (initial ∅))
  = {| status := 500;
       content := ErrorContent
         {| error := "Transcription failed: Rate limit reached";
            detail := Some "HTTP 500"%string |} |}.
Proof.
  rewrite (service_failure_reported (Examples.failing "Rate limit reached")
             (Examples.upload "memo.ogg" Examples.two_bytes) (initial ∅)
             "memo.ogg" "/tmp/tmpk2j4h6g8.ogg" "Rate limit reached"
             eq_refl ltac:(discriminate) ltac:(vm_compute; reflexivity)
             ltac:(discriminate) ltac:(vm_compute; reflexivity) eq_refl).
  reflexivity.
Defined.

(** X5.  When every candidate name for the temporary file is taken, the request
    fails with status 500 before anything is created: the service is not
    called and the files in place are left as they are. *)
Theorem no_temp_name_fails_closed
    (env : Env) (audio : UploadFile) (w : World) (name : string) :
  filename audio = Some name ->
  name <> EmptyString ->
  extension_of name ∈ SUPPORTED_FORMATS ->
  file audio <> [] ->
  first_free env (extension_of name) (temp_names env) (fs w) = None ->
  post_transcribe env (Some audio) w
  = ({| status := 500;
        content := ErrorContent
          {| error := "Transcription failed: [Errno 17] No usable temporary file name found";
             detail := Some "HTTP 500"%string |} |},
     {| fs := fs w; trace := trace w ++ [EvRead] |}).
Proof.
  intros Hname Hne Hsup Hdata Hpath. unfold post_transcribe.
  now rewrite (run_no_temp_name _ _ _ name).
Qed.

(** Both candidate names are taken by older files. *)
Lemma no_temp_name_fails_closed_taken :
  let w := initial {[ "/tmp/tmpk2j4h6g8.wav"%string := [Byte.x01];
                      "/tmp/tmpq1w2e3r4.wav"%string := [Byte.x02] ]} in
  let run := post_transcribe (Examples.answering "hello")
               (Some (Examples.upload "memo.wav" Examples.two_bytes)) w in
  status (fst run) = 500
  /\ fs (snd run) = fs w
  /\ trace (snd run) = [EvRead].
Proof.
  intros w run. subst run.
  rewrite (no_temp_name_fails_closed (Examples.answering "hello")
             (Examples.upload "memo.wav" Examples.two_bytes) w "memo.wav"
             eq_refl ltac:(discriminate) ltac:(vm_compute; reflexivity)
             ltac:(discriminate) ltac:(vm_compute; reflexivity)).
  repeat split.
Defined.

(** ** The filename *)

Lemma extension_of_trailing_dot (f : string) :
  extension_of (f +:+ ".") = "."%string.
Proof. unfold extension_of. now rewrite last_item_split_app. Qed.

(** X6.  The extension is read off the text behind the last dot alone, lowered:
    what stands before that dot, dots included, plays no part. *)
Theorem extension_is_last_piece (f e : string) :
  has_char "." e = false ->
  extension_of (f +:+ String "." e) = String "." (Py.lower e).
Proof.
  intros He. unfold extension_of. now rewrite last_item_split_app.
Qed.

(** Two dots, upper case; and a format name that is not last. *)
Lemma extension_is_last_piece_examples :
  extension_of "archive.tar.MP3" = ".mp3"%string
  /\ extension_of "song.mp3.txt" = ".txt"%string.
Proof.
  split.
  - exact (extension_is_last_piece "archive.tar" "MP3" eq_refl).
  - exact (extension_is_last_piece "song.mp3" "txt" eq_refl).
Defined.

(** X7.  A name that ends in a dot has the extension "." and is rejected with the
    400 format error, whatever stands before the dot. *)
Theorem trailing_dot_rejected
    (env : Env) (audio : UploadFile) (w : World) (f : string) :
  filename audio = Some (f +:+ ".")%string ->
  transcribe_audio_v1 env audio w
  = (Raise (HTTPException 400 (unsupported_detail env)), w).
Proof.
  intros Hname. apply run_unsupported with (f +:+ ".")%string; [assumption| |].
  - destruct f; discriminate.
  - rewrite (extension_of_trailing_dot f). vm_compute. discriminate.
Qed.

(** The name "memo." with nothing behind its dot. *)
Lemma trailing_dot_rejected_bare :
  fst (transcribe_audio_v1 (Examples.answering "hello")
         (Examples.upload "memo." Examples.two_bytes) (initial ∅))
  = Raise (HTTPException 400
             "Unsupported audio format. Supported formats: .m4a, .mp3, .wav, .ogg, .webm").
Proof.
  rewrite (trailing_dot_rejected (Examples.answering "hello")
             (Examples.upload "memo." Examples.two_bytes) (initial ∅) "memo"
             eq_refl).
  reflexivity.
Defined.

(** A run looks at the upload through three things only: whether the name
    is empty, the extension of the name, and the payload. *)
Lemma run_by_extension (env : Env) (a1 a2 : UploadFile) (w : World) (n1 n2 : string) :
  filename a1 = Some n1 -> filename a2 = Some n2 ->
  n1 <> EmptyString -> n2 <> EmptyString ->
  extension_of n1 = extension_of n2 ->
  file a1 = file a2 ->
  transcribe_audio_v1 env a1 w = transcribe_audio_v1 env a2 w.
Proof.
  intros H1 H2 Hne1 Hne2 Hext Hfile. unfold_run.
  rewrite H1, H2, !truthy_Some, Hext, Hfile by assumption. reflexivity.
Qed.

(** X8.  Two uploads with the same payload whose non-empty names have the same
    extension are handled alike, step for step: the rest of the name and the
    declared content type have no influence on the run. *)
Theorem filename_matters_through_extension
    (env : Env) (a1 a2 : UploadFile) (w : World) (n1 n2 : string) :
  filename a1 = Some n1 -> filename a2 = Some n2 ->
  n1 <> EmptyString -> n2 <> EmptyString ->
  extension_of n1 = extension_of n2 ->
  file a1 = file a2 ->
  post_transcribe env (Some a1) w = post_transcribe env (Some a2) w.
Proof.
  intros H1 H2 Hne1 Hne2 Hext Hfile. unfold post_transcribe.
  now rewrite (run_by_extension env a1 a2 w n1 n2).
Qed.

(** Different names, different content types, one extension. *)
Lemma filename_matters_through_extension_example :
  post_transcribe (Examples.answering "hello")
    (Some {| filename := Some "a.b.WAV"%string; content_type := None;
             file := Examples.two_bytes |}) (initial ∅)
  = post_transcribe (Examples.answering "hello")
      (Some (Examples.upload "memo.wav" Examples.two_bytes)) (initial ∅).
Proof.
  apply (filename_matters_through_extension _ _ _ _ "a.b.WAV" "memo.wav");
    try reflexivity; discriminate.
Defined.

Lemma lower_char_idem (c : ascii) :
  Py.lower_char (Py.lower_char c) = Py.lower_char c.
Proof. destruct c as [[] [] [] [] [] [] [] []]; vm_compute; reflexivity. Qed.

Lemma lower_idem (s : string) : Py.lower (Py.lower s) = Py.lower s.
Proof.
  induction s as [|c r IH]; simpl; [reflexivity|]. now rewrite lower_char_idem, IH.
Qed.

Lemma split_lower (s : string) :
  Py.split "." (Py.lower s) = List.map Py.lower (Py.split "." s).
Proof.
  induction s as [|c r IH]; [reflexivity|].
  cbn [Py.lower Py.split]. rewrite lower_char_dot.
  destruct (Ascii.eqb c "."); rewrite IH; [reflexivity|].
  destruct (Py.split "." r); reflexivity.
Qed.

Lemma last_item_map_lower (l : list string) :
  Py.last_item (List.map Py.lower l) = Py.lower (Py.last_item l).
Proof.
  unfold Py.last_item.
  induction l as [|x [|y r] IH]; [reflexivity|reflexivity|exact IH].
Qed.

Lemma extension_of_lower (name : string) :
  extension_of (Py.lower name) = extension_of name.
Proof.
  unfold extension_of. now rewrite split_lower, last_item_map_lower, lower_idem.
Qed.

(** X9.  Validation ignores the case of the whole name: two names that agree up
    to case are handled alike. *)
Theorem filename_case_ignored
    (env : Env) (a1 a2 : UploadFile) (w : World) (n1 n2 : string) :
  filename a1 = Some n1 -> filename a2 = Some n2 ->
  Py.lower n1 = Py.lower n2 ->
  file a1 = file a2 ->
  transcribe_audio_v1 env a1 w = transcribe_audio_v1 env a2 w.
Proof.
  intros H1 H2 Hlow Hfile.
  destruct n1 as [|c1 r1], n2 as [|c2 r2]; try discriminate.
  - now rewrite !run_no_file by (rewrite ?H1, ?H2; reflexivity).
  - apply (run_by_extension env a1 a2 w _ _ H1 H2); try discriminate; try assumption.
    now rewrite <- extension_of_lower, Hlow, extension_of_lower.
Qed.

(** "MEMO.Mp3" and "memo.mp3". *)
Lemma filename_case_ignored_example :
  transcribe_audio_v1 (Examples.failing "down")
    (Examples.upload "MEMO.Mp3" Examples.two_bytes) (initial ∅)
  = transcribe_audio_v1 (Examples.failing "down")
      (Examples.upload "memo.mp3" Examples.two_bytes) (initial ∅).
Proof.
  apply (filename_case_ignored _ _ _ _ "MEMO.Mp3" "memo.mp3"); reflexivity.
Defined.

(** ** The floor of the estimate *)

Lemma all_in_block_spec (P : Z -> bool) (bits : nat) :
  forall base n,
    all_in_block P bits base = true ->
    base <= n < base + 2 ^ Z.of_nat bits ->
    P n = true.
Proof.
  induction bits as [|b IH]; intros base n H Hn.
  - simpl in *. assert (n = base) as -> by lia. exact H.
  - cbn [all_in_block] in H. apply andb_prop in H as [H1 H2].
    rewrite Nat2Z.inj_succ, Z.pow_succ_r in Hn by lia.
    destruct (Z_lt_ge_dec n (base + 2 ^ Z.of_nat b)).
    + apply (IH base); [assumption|lia].
    + apply (IH (base + 2 ^ Z.of_nat b)); [assumption|lia].
Qed.

(** Below 52429 bytes the quotient behind the estimate is under 0.1 (checked
    on each length). *)
Lemma raw_minutes_small (n : Z) :
  1 <= n <= 52428 -> PrimFloat.ltb (raw_minutes n) 0.1 = true.
Proof.
  intros Hn.
  assert (all_in_block floor_applies 16 0 = true) as Hall
    by (vm_compute; reflexivity).
  apply all_in_block_spec with (n := n) in Hall; [|simpl; lia].
  unfold floor_applies in Hall.
  destruct (Z.ltb_spec n 1); [lia|].
  destruct (Z.ltb_spec 52428 n); [lia|].
  exact Hall.
Qed.

(** X10.  Every payload of at most 52428 bytes is charged the minimum: a successful
    response to it reports 0.1 minutes at a cost of 0.0003. *)
Theorem small_payload_minimum
    (env : Env) (audio : UploadFile) (w w' : World) (r : TranscriptionResponse) :
  transcribe_audio_v1 env audio w = (Val r, w') ->
  Py.len (file audio) <= 52428 ->
  estimated_minutes r = 0.1%float /\ estimated_cost r = 0.0003%float.
Proof.
  intros Hrun Hlen. pose proof (run_follows_path env audio w) as Hpath.
  rewrite Hrun in Hpath. inversion Hpath; subst.
  assert (Estimates.estimated_minutes (file audio) = 0.1%float) as Hest.
  { change (Estimates.estimated_minutes (file audio))
      with (Py.max (raw_minutes (Py.len (file audio))) 0.1).
    unfold Py.max. rewrite raw_minutes_small; [reflexivity|].
    split; [|assumption].
    destruct (file audio); [contradiction|]. unfold Py.len. cbn [length]. lia. }
  match goal with
  | Hc : estimated_cost r = _, Hm : estimated_minutes r = _ |- _ =>
      rewrite Hc, Hm
  end.
  unfold Estimates.estimated_cost. rewrite Hest.
  split; vm_compute; reflexivity.
Qed.

(** A payload of 4096 bytes; one byte above the bound the estimate leaves
    the floor. *)
Lemma small_payload_minimum_example :
  (exists r w',
     transcribe_audio_v1 (Examples.answering "hello")
       (Examples.upload "memo.m4a" (Examples.zeros 4096)) (initial ∅) = (Val r, w')
     /\ estimated_minutes r = 0.1%float /\ estimated_cost r = 0.0003%float)
  /\ PrimFloat.ltb (raw_minutes 52429) 0.1 = false.
Proof.
  split; [|vm_compute; reflexivity].
  destruct (transcribe_audio_v1 (Examples.answering "hello")
              (Examples.upload "memo.m4a" (Examples.zeros 4096)) (initial ∅))
    as [[r|e] w'] eqn:Hrun; [|vm_compute in Hrun; discriminate Hrun].
  exists r, w'. split; [reflexivity|].
  apply (small_payload_minimum _ _ _ _ _ Hrun). vm_compute. discriminate.
Defined.

(** * Properties of the configuration code *)

Lemma truthy_iff (o : option string) :
  Py.truthy o = true <-> exists v, o = Some v /\ v <> EmptyString.
Proof.
  destruct o as [[|c r]|]; simpl; split; try discriminate.
  - intros (v & [= <-] & Hv). contradiction.
  - intros _. eexists. split; [reflexivity|discriminate].
  - reflexivity.
  - intros (v & [=] & _).
Qed.

(** X11.  The health check reports the key as configured exactly when
    [OPENAI_API_KEY] is set to a non-empty value (a key set to the empty
    string counts as missing), and the start-up log agrees with it: the
    warning is printed exactly when the health check says "not configured",
    the confirmation exactly when it says "configured". *)
Theorem health_agrees_with_startup (p : Process) :
  (Health.openai_configured (Health.health_check p) = true
   <-> exists v, environ p !! "OPENAI_API_KEY"%string = Some v /\ v <> EmptyString)
  /\ (KeyNotFoundWarning ∈ fst (lifespan p)
      <-> Health.openai_configured (Health.health_check p) = false)
  /\ (KeyLoaded ∈ fst (lifespan p)
      <-> Health.openai_configured (Health.health_check p) = true).
Proof.
  split; [apply truthy_iff|].
  unfold lifespan, Health.health_check. cbn [fst Health.openai_configured].
  destruct (Py.truthy (getenv p "OPENAI_API_KEY")); cbn [negb].
  all: split; split; intros H; try reflexivity; try discriminate.
  all: try (in_cases H; discriminate).
  all: repeat constructor.
Qed.

(** X12.  [uvicorn.conf.py]: in production there are at least two workers, however
    small [WORKERS] is, and reload is off; outside production there is
    exactly one worker, whatever [WORKERS] says, and reload is on. *)
Theorem conf_workers_by_environment (p : Process) (c : UvicornConf.Settings) :
  UvicornConf.load p = inr c ->
  if UvicornConf.production p
  then 2 <= UvicornConf.workers c
       /\ (forall n, getenv_int p "WORKERS" 2 = inr n ->
                     UvicornConf.workers c = Z.max 2 n)
       /\ UvicornConf.reload c = false
       /\ UvicornConf.reload_dirs c = None
  else UvicornConf.workers c = 1
       /\ UvicornConf.reload c = true
       /\ UvicornConf.reload_dirs c = Some ["."%string].
Proof.
  unfold UvicornConf.load.
  destruct (getenv_int p "WORKERS" 1) as [bad|n1]; [discriminate|].
  destruct (UvicornConf.production p).
  - destruct (getenv_int p "WORKERS" 2) as [bad|n]; [discriminate|].
    intros [= <-]. cbn. unfold int_max.
    repeat split; [|intros ? [= <-]]; destruct (Z.ltb_spec 2 n); lia.
  - intros [= <-]. cbn. auto.
Qed.

(** Production with [WORKERS=1], and development with [WORKERS=8]. *)
Lemma conf_workers_by_environment_examples :
  (exists c, UvicornConf.load
               (ExampleProcess.of_list [("ENVIRONMENT", "Production"); ("WORKERS", "1")]%string)
             = inr c
             /\ UvicornConf.workers c = 2 /\ UvicornConf.reload c = false)
  /\ (exists c, UvicornConf.load
                  (ExampleProcess.of_list [("WORKERS", "8")]%string) = inr c
                /\ UvicornConf.workers c = 1 /\ UvicornConf.reload c = true).
Proof.
  split.
  - destruct (UvicornConf.load
                (ExampleProcess.of_list [("ENVIRONMENT", "Production"); ("WORKERS", "1")]%string))
      as [bad|c] eqn:Hload; [vm_compute in Hload; discriminate Hload|].
    exists c. split; [reflexivity|].
    pose proof (conf_workers_by_environment _ _ Hload) as H.
    change (UvicornConf.production _) with true in H. cbn iota in H.
    destruct H as (_ & Hw & Hr & _).
    split; [|exact Hr]. rewrite (Hw 1); reflexivity.
  - destruct (UvicornConf.load (ExampleProcess.of_list [("WORKERS", "8")]%string))
      as [bad|c] eqn:Hload; [vm_compute in Hload; discriminate Hload|].
    exists c. split; [reflexivity|].
    pose proof (conf_workers_by_environment _ _ Hload) as H.
    change (UvicornConf.production _) with false in H. cbn iota in H.
    destruct H as (Hw & Hr & _). auto.
Defined.

(** X13.  [uvicorn.conf.py] fails exactly when [WORKERS] is set to something [int]
    refuses, also outside production, where the number is not used.  [PORT]
    is never checked: it goes into [bind] as it is. *)
Theorem conf_fails_on_workers_only (p : Process) :
  ((exists bad, UvicornConf.load p = inl bad)
   <-> exists s, environ p !! "WORKERS"%string = Some s /\ int_of_str p s = None)
  /\ forall c, UvicornConf.load p = inr c ->
       UvicornConf.bind c
       = ("0.0.0.0:" +:+ default "6000"%string (environ p !! "PORT"%string))%string.
Proof.
  unfold UvicornConf.load, getenv_int, getenv. split.
  - destruct (environ p !! "WORKERS"%string) as [s|].
    + destruct (int_of_str p s) as [n|] eqn:E.
      * destruct (UvicornConf.production p); split.
        all: try (intros (bad & [=])).
        all: intros (s' & [= <-] & Hs); congruence.
      * split; eauto.
    + destruct (UvicornConf.production p); split.
      all: try (intros (bad & [=])).
      all: intros (s' & [=] & _).
  - intros c.
    destruct (environ p !! "WORKERS"%string) as [s|].
    + destruct (int_of_str p s) as [n|]; [|discriminate].
      destruct (UvicornConf.production p); intros [= <-]; reflexivity.
    + destruct (UvicornConf.production p); intros [= <-]; reflexivity.
Qed.



(** X15.  [start.py] gives up before starting the server exactly when [PORT] or
    [WORKERS] is set to something [int] refuses; with both unset it starts
    on port 6000 with one worker. *)
Theorem start_fails_on_bad_numbers (p : Process) :
  ((exists bad, Start.main p = inl bad)
   <-> (exists s, environ p !! "PORT"%string = Some s /\ int_of_str p s = None)
       \/ (exists s, environ p !! "WORKERS"%string = Some s /\ int_of_str p s = None))
  /\ (environ p !! "PORT"%string = None ->
      environ p !! "WORKERS"%string = None ->
      exists r, Start.main p = inr r /\ Start.port r = 6000 /\ Start.workers r = 1).
Proof.
  unfold Start.main, getenv_int, getenv. split.
  - destruct (environ p !! "PORT"%string) as [s|];
      [destruct (int_of_str p s) as [n|] eqn:E|];
      (destruct (environ p !! "WORKERS"%string) as [s'|];
       [destruct (int_of_str p s') as [n'|] eqn:E'|]).
    all: split; [intros (bad & H); try discriminate H; eauto|].
    all: intros [(x & [= <-] & Hx)|(x & [= <-] & Hx)]; try congruence; eauto.
  - intros -> ->. eauto.
Qed.
